(** * Sookasem Place animation controller: the horizontal scroll coordinator

    A shallow embedding of the part of [src/index.js] that computes the
    horizontal scroll distance of [#wrap-scroll] and registers the tween and
    the scroll trigger that depend on it (index.js lines 33-160), followed by
    the rest of the [DOMContentLoaded] listener (lines 162-330).

    The script is JavaScript glue around two hosts: the browser (DOM lookups
    and live layout reads) and the GSAP engine (tween and trigger
    registration).  The browser is modelled by a store of element objects that
    closures alias by reference; the engine by the list of configurations it
    was handed.  JavaScript values, numbers and the conversions the script
    triggers ([ToNumber], [ToString], property reads on [null]) are written
    out. *)

From stdpp Require Import base option list gmap strings pretty.
From Stdlib Require Import Ascii ZArith Lia Sorting.Sorted Sorting.Permutation.

Open Scope string_scope.
Open Scope Z_scope.

(** ** JavaScript numbers

    Every number this component handles is an integer: [scrollWidth] and
    [innerWidth] are DOM [long] attributes, and the only arithmetic is one
    subtraction, one negation and one multiplication by [-1].  On integers of
    that size IEEE-754 double arithmetic is exact, so a finite number is a
    [Z].  Two non-integers are kept because the script produces them:
    [NaN] (from converting a function to a number) and the negative zero
    (from negating a zero overflow). *)
Module Number.

Inductive number : Type :=
| NaN
| NegZero
| Finite (z : Z).   (* [Finite 0] is the positive zero *)

#[global] Instance number_eq_dec : EqDecision number.
Proof. solve_decision. Defined.

(** The mathematical value of a non-NaN number. *)
Definition to_Z (n : number) : option Z :=
  match n with
  | NaN => None
  | NegZero => Some 0
  | Finite z => Some z
  end.

Definition is_negative (n : number) : bool :=
  match n with
  | NaN => false
  | NegZero => true
  | Finite z => z <? 0
  end.

(** Unary minus. *)
Definition neg (n : number) : number :=
  match n with
  | NaN => NaN
  | NegZero => Finite 0
  | Finite 0 => NegZero
  | Finite z => Finite (- z)
  end.

(** Binary minus; [x - x] is the positive zero. *)
Definition sub (a b : number) : number :=
  match a, b with
  | NaN, _ | _, NaN => NaN
  | NegZero, NegZero => Finite 0
  | NegZero, Finite 0 => NegZero
  | NegZero, Finite b => Finite (- b)
  | Finite a, NegZero => Finite a
  | Finite a, Finite b => Finite (a - b)
  end.

(** Multiplication; a zero product takes the exclusive or of the signs. *)
Definition mul (a b : number) : number :=
  match to_Z a, to_Z b with
  | Some x, Some y =>
      if x * y =? 0
      then (if xorb (is_negative a) (is_negative b) then NegZero else Finite 0)
      else Finite (x * y)
  | _, _ => NaN
  end.

(** [Math.abs]. *)
Definition abs (n : number) : number :=
  match n with
  | NaN => NaN
  | NegZero => Finite 0
  | Finite z => Finite (Z.abs z)
  end.

(** The comparisons [===] (on two numbers), [>=] and [<]: every comparison
    with [NaN] is false, and the two zeros compare equal. *)
Definition strict_eq (a b : number) : bool :=
  match to_Z a, to_Z b with
  | Some x, Some y => x =? y
  | _, _ => false
  end.

Definition ge (a b : number) : bool :=
  match to_Z a, to_Z b with
  | Some x, Some y => y <=? x
  | _, _ => false
  end.

Definition lt (a b : number) : bool :=
  match to_Z a, to_Z b with
  | Some x, Some y => x <? y
  | _, _ => false
  end.

(** [Number::toString] in radix 10.  The decimal expansion is what
    JavaScript prints for integers of magnitude below 10^21. *)
Definition to_string (n : number) : string :=
  match n with
  | NaN => "NaN"
  | NegZero => "0"
  | Finite z => pretty z
  end.

(** A DOM [long]. *)
Definition is_long (z : Z) : Prop := - 2 ^ 31 <= z < 2 ^ 31.

(** The integers a double represents exactly. *)
Definition safe_integer (n : number) : Prop :=
  match n with
  | Finite z => Z.abs z <= 2 ^ 53
  | _ => True
  end.

End Number.
Import Number.

(** ** [StringToNumber]

    The conversion of a string to a number, for the inputs that a text can
    be decided on without leaving the integer model: blank strings, signed
    decimal integers, and texts whose first character cannot start any
    numeric literal.  [None] marks the literals outside the model
    (fractions, exponents, radix prefixes, [Infinity], non-ASCII white
    space). *)
Module StringToNumber.

Definition is_white_space (c : ascii) : bool :=
  let n := nat_of_ascii c in
  (Nat.eqb n 9 || Nat.eqb n 10 || Nat.eqb n 11 || Nat.eqb n 12
   || Nat.eqb n 13 || Nat.eqb n 32)%bool.

Fixpoint skip_white_space (s : string) : string :=
  match s with
  | String c s' => if is_white_space c then skip_white_space s' else s
  | EmptyString => EmptyString
  end.

Definition digit_of (c : ascii) : option Z :=
  let n := nat_of_ascii c in
  if (Nat.leb 48 n && Nat.leb n 57)%bool then Some (Z.of_nat (n - 48)) else None.

Fixpoint read_digits (acc : Z) (s : string) : Z * string :=
  match s with
  | String c s' =>
      match digit_of c with
      | Some d => read_digits (10 * acc + d) s'
      | None => (acc, s)
      end
  | EmptyString => (acc, EmptyString)
  end.

(** One or more decimal digits followed by white space only. *)
Definition read_unsigned (s : string) : option Z :=
  match s with
  | String c _ =>
      match digit_of c with
      | Some _ =>
          let '(z, rest) := read_digits 0 s in
          match skip_white_space rest with
          | EmptyString => if z <=? 2 ^ 53 then Some z else None
          | _ => None
          end
      | None => None
      end
  | EmptyString => None
  end.

(** The characters a [StringNumericLiteral] can begin with: a digit, a
    sign, the decimal point, or the [I] of [Infinity]. *)
Definition numeric_start (c : ascii) : bool :=
  match digit_of c with
  | Some _ => true
  | None =>
      let n := nat_of_ascii c in
      (Nat.eqb n 43 || Nat.eqb n 45 || Nat.eqb n 46 || Nat.eqb n 73)%bool
  end.

Definition string_to_number (s : string) : option number :=
  match skip_white_space s with
  | EmptyString => Some (Finite 0)
  | String c rest as t =>
      let n := nat_of_ascii c in
      if Nat.leb 128 n then None
      else if negb (numeric_start c) then Some NaN
      else if Nat.eqb n 45 then
        match read_unsigned rest with
        | Some 0 => Some NegZero
        | Some z => Some (Finite (- z))
        | None => None
        end
      else if Nat.eqb n 43 then Finite <$> read_unsigned rest
      else Finite <$> read_unsigned t
  end.

End StringToNumber.
Import StringToNumber.

(** ** The browser: element objects, the document and the window

    An element is a heap object; a [const] that holds it holds a reference,
    so a closure that captured the reference reads the element's current
    layout, not the layout at capture time.  [document] lists the references
    of the elements attached to the page, in document order. *)
Module Dom.

Definition ref := nat.

Record Element : Type := mkElement {
  elem_id : string;       (* the [id] attribute *)
  scrollWidth : Z         (* content width in pixels, a DOM [long] *)
}.

Record Host : Type := mkHost {
  heap : gmap nat Element;
  document : list ref;
  innerWidth : Z          (* [window.innerWidth], a DOM [long] *)
}.

Definition has_id (h : Host) (id : string) (r : ref) : bool :=
  match heap h !! r with
  | Some e => String.eqb (elem_id e) id
  | None => false
  end.

(** The first attached element with the given [id], or [null]. *)
Definition getElementById (h : Host) (id : string) : option ref :=
  List.find (has_id h id) (document h).

End Dom.
Import Dom.

(** ** Values, closures and completions *)

(** The closure scope of the [DOMContentLoaded] listener: the one binding
    its inner functions capture (index.js line 46). *)
Record Scope : Type := mkScope {
  w_scr : option ref      (* [Element | null], as [querySelector] returns *)
}.

(** The two function expressions of the component. *)
Inductive fn : Type :=
| Get_scr     (* index.js lines 62-64 *)
| X_arrow.    (* index.js line 103: [() => get_scr()] *)

Record closure : Type := mkClosure {
  code : fn;
  scope : Scope
}.

Inductive value : Type :=
| VUndefined
| VNull
| VNumber (n : number)
| VString (s : string)
| VElement (r : ref)
| VFunction (c : closure).

#[global] Instance Scope_eq_dec : EqDecision Scope.
Proof. solve_decision. Defined.
#[global] Instance fn_eq_dec : EqDecision fn.
Proof. solve_decision. Defined.
#[global] Instance closure_eq_dec : EqDecision closure.
Proof. solve_decision. Defined.
#[global] Instance value_eq_dec : EqDecision value.
Proof. solve_decision. Defined.

Definition value_of_lookup (o : option ref) : value :=
  match o with
  | Some r => VElement r
  | None => VNull
  end.

(** [Function.prototype.toString]: the source text of the function
    expression, as written in index.js. *)
Definition source_text (f : fn) : string :=
  match f with
  | Get_scr => "() => {
    return -(w_scr.scrollWidth - window.innerWidth);
  }"
  | X_arrow => "() => get_scr()"
  end.

(** [ToNumber].  An object is first converted to a primitive: a function's
    [valueOf] returns the function itself, so its [toString] is used; an
    element prints as a bracketed class name, which is no numeric literal. *)
Definition to_number (v : value) : option number :=
  match v with
  | VUndefined => Some NaN
  | VNull => Some (Finite 0)
  | VNumber n => Some n
  | VString s => string_to_number s
  | VElement _ => Some NaN
  | VFunction c => string_to_number (source_text (code c))
  end.

(** [ToString]; an element's class name is not modelled. *)
Definition to_string (v : value) : option string :=
  match v with
  | VUndefined => Some "undefined"
  | VNull => Some "null"
  | VNumber n => Some (Number.to_string n)
  | VString s => Some s
  | VElement _ => None
  | VFunction c => Some (source_text (code c))
  end.

Inductive exn : Type :=
| TypeError (reading : string).   (* a property read on [null] or [undefined] *)

(** How an evaluation ends.  [Stuck] is not a JavaScript outcome: it marks
    an evaluation that leaves the modelled fragment (an unmodelled
    property, a reference to no object). *)
Inductive completion (A : Type) : Type :=
| Normal (a : A)
| Throw (e : exn)
| Stuck.
Arguments Normal {A} a.
Arguments Throw {A} e.
Arguments Stuck {A}.

(** ** The animation engine, as the configurations it was handed *)

Record TweenVars : Type := mkTweenVars {
  ease : string;
  x : value;
  duration : Z
}.

Record Tween : Type := mkTween {
  targets : value;
  vars : TweenVars
}.

Record TriggerVars : Type := mkTriggerVars {
  refreshPriority : option Z;     (* [None]: the property is absent *)
  trigger : value;
  start : value;
  end_ : value;
  pin : bool;
  animation : option nat;         (* handle of the bound tween *)
  invalidateOnRefresh : bool;
  scrub : Z
}.

Record Engine : Type := mkEngine {
  plugins : list string;
  tweens : list Tween;
  triggers : list TriggerVars
}.

Record World : Type := mkWorld {
  host : Host;
  engine : Engine
}.

(** ** Evaluation: state passing with abrupt completion *)

Definition M (A : Type) : Type := World -> completion A * World.

#[global] Instance M_ret : MRet M := fun A a w => (Normal a, w).

#[global] Instance M_bind : MBind M := fun A B f m w =>
  match m w with
  | (Normal a, w') => f a w'
  | (Throw e, w') => (Throw e, w')
  | (Stuck, w') => (Stuck, w')
  end.

Definition throw {A} (e : exn) : M A := fun w => (Throw e, w).
Definition stuck {A} : M A := fun w => (Stuck, w).
Definition read_host : M Host := fun w => (Normal (host w), w).
Definition update_engine (f : Engine -> Engine) : M unit :=
  fun w => (Normal tt, mkWorld (host w) (f (engine w))).

Definition lift {A} (o : option A) : M A :=
  match o with
  | Some a => mret a
  | None => stuck
  end.

(** [document.querySelector] on an id selector, the only form the
    component looks up by. *)
Definition querySelector (sel : string) : M (option ref) :=
  match sel with
  | String "#" id => h ← read_host; mret (getElementById h id)
  | _ => stuck
  end.

(** A property read [base.prop].  Reading through [null] or [undefined]
    throws; [scrollWidth] is the one element property the component reads. *)
Definition get_member (base : value) (prop : string) : M value :=
  match base with
  | VNull | VUndefined => throw (TypeError prop)
  | VElement r =>
      if String.eqb prop "scrollWidth" then
        h ← read_host;
        e ← lift (heap h !! r);
        mret (VNumber (Finite (scrollWidth e)))
      else stuck
  | _ => stuck
  end.

(** [window.innerWidth]. *)
Definition window_innerWidth : M value :=
  h ← read_host; mret (VNumber (Finite (innerWidth h))).

Definition js_sub (a b : value) : M value :=
  na ← lift (to_number a); nb ← lift (to_number b);
  mret (VNumber (Number.sub na nb)).

Definition js_neg (a : value) : M value :=
  na ← lift (to_number a); mret (VNumber (Number.neg na)).

Definition js_mul (a b : value) : M value :=
  na ← lift (to_number a); nb ← lift (to_number b);
  mret (VNumber (Number.mul na nb)).

(** A template literal with one substitution at its end: [`prefix${v}`]. *)
Definition template (prefix : string) (v : value) : M value :=
  s ← lift (to_string v); mret (VString (prefix +:+ s)).

(** *** The component *)

(** index.js lines 62-64:
    [return -(w_scr.scrollWidth - window.innerWidth);] *)
Definition get_scr (sc : Scope) : M value :=
  a ← get_member (value_of_lookup (w_scr sc)) "scrollWidth";
  b ← window_innerWidth;
  d ← js_sub a b;
  js_neg d.

(** Calling a function object of the component with no argument. *)
Definition call (c : closure) : M value :=
  match code c with
  | Get_scr => get_scr (scope c)
  | X_arrow => get_scr (scope c)
  end.

(** The engine's entry points.  The engine is an outside collaborator: the
    model records what it is given. *)
Definition gsap_registerPlugin (names : list string) : M unit :=
  update_engine (fun e => mkEngine (plugins e ++ names) (tweens e) (triggers e)).

Definition gsap_to (target : value) (v : TweenVars) : M nat :=
  fun w =>
    let e := engine w in
    (Normal (length (tweens e)),
     mkWorld (host w) (mkEngine (plugins e) (tweens e ++ [mkTween target v]) (triggers e))).

Definition ScrollTrigger_create (v : TriggerVars) : M unit :=
  update_engine (fun e => mkEngine (plugins e) (tweens e) (triggers e ++ [v])).

(** The coordinator's part of the [DOMContentLoaded] listener, index.js
    lines 46-160.  The listener returns nothing; the model returns the
    scope it created, so that later calls of its closures can be stated. *)
Definition setup : M Scope :=
  w ← querySelector "#wrap-scroll";
  let sc := mkScope w in
  let get_scr_fn := VFunction (mkClosure Get_scr sc) in
  gsap_registerPlugin ["ScrollTrigger"; "RoughEase"; "CustomEase"; "SplitText"];;
  a ← gsap_to (value_of_lookup w)
        {| ease := "slow(0.0000000001,0.0000000001,false)";
           x := VFunction (mkClosure X_arrow sc);
           duration := 5 |};
  n ← js_mul get_scr_fn (VNumber (Finite (-1)));
  e ← template "+=" n;
  ScrollTrigger_create
    {| refreshPriority := Some (-1);
       trigger := value_of_lookup w;
       start := VString "top 20%";
       end_ := e;
       pin := true;
       animation := Some a;
       invalidateOnRefresh := true;
       scrub := 195 |};;
  mret sc.

(** ** Refresh

    What the component relies on from the engine (index.js lines 97 and
    114-117): a configuration value given as a function is called each time
    the engine needs it, a plain value is used as it is; and a refresh pass
    visits the registered triggers by descending [refreshPriority], an absent
    priority counting as 0. *)
Definition resolve (v : value) : M value :=
  match v with
  | VFunction c => call c
  | _ => mret v
  end.

Definition priority (t : TriggerVars) : Z := default 0 (refreshPriority t).

Definition not_later (t u : TriggerVars) : Prop := priority u <= priority t.

Definition refresh_pass (registry order : list TriggerVars) : Prop :=
  Permutation registry order /\ StronglySorted not_later order.

(** An executable refresh order: a stable insertion sort, so that triggers
    of one priority keep their registration order. *)
Fixpoint insert_by_priority (t : TriggerVars) (l : list TriggerVars) : list TriggerVars :=
  match l with
  | [] => [t]
  | u :: l' =>
      if priority u <=? priority t then t :: l
      else u :: insert_by_priority t l'
  end.

Definition refresh_order (registry : list TriggerVars) : list TriggerVars :=
  foldr insert_by_priority [] registry.

(** ** Pages used in the examples *)

Definition no_engine : Engine := mkEngine [] [] [].

(** A page whose [#wrap-scroll] is the element at reference 7. *)
Definition page (C V : Z) : World :=
  mkWorld (mkHost {[ 7%nat := mkElement "wrap-scroll" C ]} [7%nat] V) no_engine.

(** A page without the container. *)
Definition blank_page (V : Z) : World :=
  mkWorld (mkHost {[ 3%nat := mkElement "header" 1200 ]} [3%nat] V) no_engine.

(** A layout change: the container's content and the window are resized. *)
Definition relayout (r : ref) (C V : Z) (w : World) : World :=
  mkWorld
    (mkHost (alter (fun e => mkElement (elem_id e) C) r (heap (host w)))
            (document (host w)) V)
    (engine w).

(** A trigger some other script registered with no [refreshPriority]. *)
Definition default_observer : TriggerVars :=
  {| refreshPriority := None;
     trigger := VElement 3%nat;
     start := VString "top bottom";
     end_ := VString "bottom top";
     pin := false;
     animation := None;
     invalidateOnRefresh := false;
     scrub := 0 |}.

(** The trigger the coordinator registers and the scope it creates. *)
Definition coordinator_trigger (w : World) : option TriggerVars :=
  last (triggers (engine (snd (setup w)))).

Definition coordinator_tween (w : World) : option Tween :=
  last (tweens (engine (snd (setup w)))).

(** Two calls of [get_scr] with a layout change in between. *)
Definition call_twice (sc : Scope) (change : World -> World) (w : World)
  : completion value * completion value * World :=
  let '(r1, w1) := get_scr sc w in
  let '(r2, w2) := get_scr sc (change w1) in
  (r1, r2, w2).

(** The end boundary that the comment at index.js lines 128-131 describes:
    the scroll distance made positive, added to the start point. *)
Definition intended_end (distance : number) : value :=
  VString ("+=" +:+ Number.to_string (Number.abs distance)).

(** An evaluation that raises no error. *)
Definition silent {A} (c : completion A) : bool :=
  match c with
  | Throw _ => false
  | _ => true
  end.

(** What a call of [get_scr] evaluates to, as a function of the captured
    scope and of the layout at the time of the call. *)
Definition scroll_distance (sc : Scope) (h : Host) : completion value :=
  match w_scr sc with
  | None => Throw (TypeError "scrollWidth")
  | Some r =>
      match heap h !! r with
      | Some e => Normal (VNumber (Number.neg (Finite (scrollWidth e - innerWidth h))))
      | None => Stuck
      end
  end.

(** ** The rest of the listener (index.js lines 162-330)

    Everything after the coordinator hands literal configurations to the
    engine: the fade-ups, the character reveal, the refresh configuration
    and the drift.  None of these tweens has the coordinator's shape, so
    each call is logged with the object literal of its call site.  The one
    new read of the page is [document.querySelectorAll]; matching a selector
    is the browser's work, so a session carries, per selector, the elements
    that match it in document order. *)

(** A decimal literal such as [1.5]: [digits] scaled down by [places]
    decimal places.  The script passes these through and never computes
    with them. *)
Record decimal : Type := mkDecimal {
  digits : Z;
  places : nat
}.

(** The [scrollTrigger] object nested in a tween's configuration
    (index.js lines 187-191 and 282-285). *)
Record InlineTrigger : Type := mkInlineTrigger {
  st_trigger : value;
  st_refreshPriority : option Z
}.

(** The literal of [goUp] (index.js lines 183-192). *)
Record FadeUpVars : Type := mkFadeUpVars {
  fu_opacity : Z;
  fu_y : Z;
  fu_duration : decimal;
  fu_scrollTrigger : InlineTrigger
}.

(** The literal of the character reveal (index.js lines 277-286). *)
Record CharsVars : Type := mkCharsVars {
  ch_opacity : Z;
  ch_duration : decimal;
  ch_ease : string;
  ch_stagger : decimal;
  ch_scrollTrigger : InlineTrigger
}.

(** The literal of the drift (index.js lines 325-329). *)
Record DriftVars : Type := mkDriftVars {
  dr_y : Z;
  dr_ease : string;
  dr_duration : Z
}.

Inductive Call : Type :=
| Gsap_to_fade (target : value) (v : FadeUpVars)
| Gsap_set (target : value) (opacity : Z)
| SplitText_create (target : value) (type : string)
| Gsap_from_chars (split : nat) (v : CharsVars)   (* target: the [chars] of that split *)
| ScrollTrigger_config (autoRefreshEvents : string)
| Gsap_to_drift (target : value) (v : DriftVars).

Record Session : Type := mkSession {
  world : World;
  matching : string -> list ref;   (* [querySelectorAll], per selector *)
  calls : list Call
}.

Definition L (A : Type) : Type := Session -> completion A * Session.

#[global] Instance L_ret : MRet L := fun A a s => (Normal a, s).

#[global] Instance L_bind : MBind L := fun A B f m s =>
  match m s with
  | (Normal a, s') => f a s'
  | (Throw e, s') => (Throw e, s')
  | (Stuck, s') => (Stuck, s')
  end.

(** Running a coordinator computation inside a session. *)
Definition in_world {A} (m : M A) : L A :=
  fun s => let '(c, w) := m (world s) in (c, mkSession w (matching s) (calls s)).

(** An engine call: logged, and answered with a handle on what it made. *)
Definition emit (c : Call) : L nat :=
  fun s => (Normal (length (calls s)),
            mkSession (world s) (matching s) (calls s ++ [c])).

Definition querySelectorAll (sel : string) : L (list ref) :=
  fun s => (Normal (matching s sel), s).

(** [Array.prototype.forEach] and [NodeList.prototype.forEach]: the
    callback runs once per element, in order. *)
Fixpoint forEach {A} (l : list A) (f : A -> L unit) : L unit :=
  match l with
  | [] => mret tt
  | a :: l' => f a;; forEach l' f
  end.

(** index.js lines 182-193. *)
Definition goUp (element : value) : L unit :=
  emit (Gsap_to_fade element
          {| fu_opacity := 1;
             fu_y := -60;
             fu_duration := mkDecimal 15 1;
             fu_scrollTrigger :=
               {| st_trigger := element; st_refreshPriority := Some (-1) |} |});;
  mret tt.

(** The whole [DOMContentLoaded] listener, index.js lines 33-331. *)
Definition listener : L unit :=
  in_world setup;;
  boxes ← querySelectorAll ".provide p";
  let elements := [".m_i"; ".t"; ".loc"] in
  forEach elements (fun element => goUp (VString element));;
  forEach boxes (fun element => goUp (VElement element));;
  emit (Gsap_set (VString ".text_spl") 1);;
  spl ← emit (SplitText_create (VString ".text_spl") "chars");
  emit (Gsap_from_chars spl
          {| ch_opacity := 0;
             ch_duration := mkDecimal 9 1;
             ch_ease := "power2.in";
             ch_stagger := mkDecimal 1 1;
             ch_scrollTrigger :=
               {| st_trigger := VString ".text_spl";
                  st_refreshPriority := Some (-1) |} |});;
  emit (ScrollTrigger_config "visibilitychange,DOMContentLoaded,load,resize");;
  emit (Gsap_to_drift (VString ".a")
          {| dr_y := 30; dr_ease := "power3.out"; dr_duration := 3 |});;
  mret tt.

(** *** Views of the call log *)

(** The calls issued between two sessions. *)
Definition issued (s s' : Session) : list Call :=
  drop (length (calls s)) (calls s').

Definition fade_of (c : Call) : option (value * FadeUpVars) :=
  match c with
  | Gsap_to_fade t v => Some (t, v)
  | _ => None
  end.

Definition fades (l : list Call) : list (value * FadeUpVars) := omap fade_of l.

Definition inline_trigger_of (c : Call) : option InlineTrigger :=
  match c with
  | Gsap_to_fade _ v => Some (fu_scrollTrigger v)
  | Gsap_from_chars _ v => Some (ch_scrollTrigger v)
  | _ => None
  end.

Definition inline_triggers (l : list Call) : list InlineTrigger :=
  omap inline_trigger_of l.

(** The split a character reveal animates, with its position in the log. *)
Definition reveal_of (c : Call) : option nat :=
  match c with
  | Gsap_from_chars k _ => Some k
  | _ => None
  end.

(** A session on a page, with the paragraphs of the amenities section. *)
Definition session (w : World) (paragraphs : list ref) : Session :=
  mkSession w
    (fun sel => if String.eqb sel ".provide p" then paragraphs else [])
    [].

(** A page that keeps its container but where [#wrap-scroll] now names
    another element, in front of it. *)
Definition page_reordered (C V : Z) : World :=
  mkWorld
    (mkHost {[ 7%nat := mkElement "gallery" C; 9%nat := mkElement "wrap-scroll" 640 ]}
            [9%nat; 7%nat] V)
    (mkEngine ["Flip"] [] [default_observer]).

(** * Properties *)

(** ** Numbers and conversions *)

Example string_to_number_blank : string_to_number "  " = Some (Finite 0).
Proof. reflexivity. Qed.

Example string_to_number_1800 : string_to_number " 1800 " = Some (Finite 1800).
Proof. reflexivity. Qed.

Example string_to_number_minus_zero : string_to_number "-0" = Some NegZero.
Proof. reflexivity. Qed.

Example string_to_number_word : string_to_number "top" = Some NaN.
Proof. reflexivity. Qed.

Example string_to_number_fraction : string_to_number "1.5" = None.
Proof. reflexivity. Qed.

(** ** Evaluation lemmas *)

Ltac run :=
  repeat (cbn -[Z.sub Z.opp Z.mul Z.add string_to_number pretty] in *;
          unfold mbind, mret, M_bind, M_ret, read_host, lift, stuck, throw,
                 update_engine in * ).

(** The arrow function's text is no numeric literal. *)
Lemma to_number_get_scr sc :
  to_number (VFunction (mkClosure Get_scr sc)) = Some NaN.
Proof. reflexivity. Qed.

Lemma to_number_function c : to_number (VFunction c) = Some NaN.
Proof. destruct c as [[] sc]; reflexivity. Qed.

Lemma neg_nonzero z : z <> 0 -> Number.neg (Finite z) = Finite (- z).
Proof. destruct z; [congruence | reflexivity | reflexivity]. Qed.

(** [get_scr] evaluates to [scroll_distance] of the current layout and
    hands the world back as it received it. *)
Lemma get_scr_eval sc w : get_scr sc w = (scroll_distance sc (host w), w).
Proof.
  unfold get_scr, scroll_distance.
  destruct (w_scr sc) as [r|]; run; [|reflexivity].
  destruct (heap (host w) !! r) as [e|]; run; reflexivity.
Qed.

Lemma call_eval c w : call c w = (scroll_distance (scope c) (host w), w).
Proof. unfold call. destruct (code c); apply get_scr_eval. Qed.

(** [setup] completes normally on every page, changes nothing of the host,
    and appends one tween and one trigger to the engine. *)
Lemma setup_eval w :
  let o := getElementById (host w) "wrap-scroll" in
  let sc := mkScope o in
  setup w =
    (Normal sc,
     mkWorld (host w)
       (mkEngine
          (plugins (engine w) ++ ["ScrollTrigger"; "RoughEase"; "CustomEase"; "SplitText"])
          (tweens (engine w) ++
             [mkTween (value_of_lookup o)
                {| ease := "slow(0.0000000001,0.0000000001,false)";
                   x := VFunction (mkClosure X_arrow sc);
                   duration := 5 |}])
          (triggers (engine w) ++
             [{| refreshPriority := Some (-1);
                 trigger := value_of_lookup o;
                 start := VString "top 20%";
                 end_ := VString "+=NaN";
                 pin := true;
                 animation := Some (length (tweens (engine w)));
                 invalidateOnRefresh := true;
                 scrub := 195 |}]))).
Proof. reflexivity. Qed.

(** The scope the closures capture holds the result of the one lookup made
    at setup time. *)
Lemma setup_scope w :
  fst (setup w) = Normal (mkScope (getElementById (host w) "wrap-scroll")).
Proof. reflexivity. Qed.

Lemma coordinator_trigger_eval w :
  coordinator_trigger w =
    Some {| refreshPriority := Some (-1);
            trigger := value_of_lookup (getElementById (host w) "wrap-scroll");
            start := VString "top 20%";
            end_ := VString "+=NaN";
            pin := true;
            animation := Some (length (tweens (engine w)));
            invalidateOnRefresh := true;
            scrub := 195 |}.
Proof.
  unfold coordinator_trigger. rewrite setup_eval. cbn [snd engine triggers].
  apply last_snoc.
Qed.

Lemma coordinator_tween_eval w :
  let o := getElementById (host w) "wrap-scroll" in
  coordinator_tween w =
    Some (mkTween (value_of_lookup o)
            {| ease := "slow(0.0000000001,0.0000000001,false)";
               x := VFunction (mkClosure X_arrow (mkScope o));
               duration := 5 |}).
Proof.
  unfold coordinator_tween. rewrite setup_eval. cbn [snd engine tweens].
  apply last_snoc.
Qed.

(** On DOM [long] widths the result is an integer a double holds exactly,
    which is what makes [Z] arithmetic faithful here. *)
Lemma scroll_distance_safe sc h r e n :
  w_scr sc = Some r -> heap h !! r = Some e ->
  is_long (scrollWidth e) -> is_long (innerWidth h) ->
  scroll_distance sc h = Normal (VNumber n) -> safe_integer n.
Proof.
  unfold scroll_distance, is_long. intros Hsc He Hc Hv H.
  rewrite Hsc, He in H. injection H as <-.
  destruct (scrollWidth e - innerWidth h) eqn:Hd; cbn; [exact I | lia | lia].
Qed.

(** Without overflow the result is zero or positive under JavaScript's
    [>=]; at equal widths it is the negative zero. *)
Lemma get_scr_no_overflow sc w r e :
  w_scr sc = Some r -> heap (host w) !! r = Some e ->
  scrollWidth e <= innerWidth (host w) ->
  exists n, get_scr sc w = (Normal (VNumber n), w) /\ Number.ge n (Finite 0) = true.
Proof.
  intros Hsc He Hle. rewrite get_scr_eval. unfold scroll_distance. rewrite Hsc, He.
  eexists; split; [reflexivity|].
  destruct (decide (scrollWidth e - innerWidth (host w) = 0)) as [Hz|Hne].
  - rewrite Hz. reflexivity.
  - rewrite neg_nonzero by assumption. cbn. lia.
Qed.

(** ** The scroll distance *)

(** C1.  When the content is wider than the viewport ([C > V]), [get_scr]
    returns [-(C - V)]: a negative number whose magnitude is the overflow. *)
Theorem get_scr_overflow sc w r e C V :
  w_scr sc = Some r ->
  heap (host w) !! r = Some e ->
  scrollWidth e = C ->
  innerWidth (host w) = V ->
  C > V ->
  get_scr sc w = (Normal (VNumber (Finite (- (C - V)))), w)
  /\ Number.lt (Finite (- (C - V))) (Finite 0) = true
  /\ Number.abs (Finite (- (C - V))) = Finite (C - V).
Proof.
  intros Hsc He HC HV Hgt. rewrite get_scr_eval. unfold scroll_distance.
  rewrite Hsc, He, HC, HV. rewrite neg_nonzero by lia.
  repeat split; cbn; [lia | f_equal; lia].
Qed.

Lemma get_scr_overflow_3000_1200 :
  get_scr (mkScope (Some 7%nat)) (page 3000 1200)
    = (Normal (VNumber (Finite (-1800))), page 3000 1200)
  /\ Number.lt (Finite (-1800)) (Finite 0) = true
  /\ Number.abs (Finite (-1800)) = Finite 1800.
Proof.
  apply (get_scr_overflow (mkScope (Some 7%nat)) (page 3000 1200) 7%nat
           (mkElement "wrap-scroll" 3000) 3000 1200);
    [reflexivity | vm_compute; reflexivity | reflexivity | reflexivity | lia].
Defined.

(** C4.  [get_scr] keeps nothing from one call to the next: whatever the
    first call saw, after a layout change the second call returns the value
    derived from the widths in force when it is made. *)
Theorem get_scr_not_cached sc r change w e2 :
  w_scr sc = Some r ->
  heap (host (change w)) !! r = Some e2 ->
  call_twice sc change w =
    (fst (get_scr sc w),
     Normal (VNumber (Number.neg (Finite (scrollWidth e2 - innerWidth (host (change w)))))),
     change w).
Proof.
  intros Hsc He. unfold call_twice. rewrite !get_scr_eval. cbn [fst].
  unfold scroll_distance at 2. rewrite Hsc, He. reflexivity.
Qed.

Lemma get_scr_not_cached_resize :
  call_twice (mkScope (Some 7%nat)) (relayout 7%nat 3000 1000) (page 3000 1200) =
    (Normal (VNumber (Finite (-1800))),
     Normal (VNumber (Finite (-2000))),
     relayout 7%nat 3000 1000 (page 3000 1200)).
Proof.
  apply (get_scr_not_cached (mkScope (Some 7%nat)) 7%nat (relayout 7%nat 3000 1000)
           (page 3000 1200) (mkElement "wrap-scroll" 3000));
    [reflexivity | vm_compute; reflexivity].
Defined.

(** C7.  Two consecutive calls of [get_scr] with no layout change between
    them return the same value, whatever the page. *)
Theorem get_scr_idempotent sc w :
  snd (fst (call_twice sc id w)) = fst (fst (call_twice sc id w)).
Proof. unfold call_twice. rewrite !get_scr_eval. reflexivity. Qed.

(** C10.  A call of [get_scr] has no side effect: the browser state and
    the engine state after the call are those before it, whether the call
    returns or throws. *)
Theorem get_scr_no_side_effect sc w : snd (get_scr sc w) = w.
Proof. rewrite get_scr_eval. reflexivity. Qed.

(** ** The trigger configuration *)

(** The tween's target [x] is a function, so the engine obtains it from the
    layout in force each time it asks. *)
Lemma tween_target_follows_layout w tw w' :
  coordinator_tween w = Some tw ->
  resolve (x (vars tw)) w' =
    (scroll_distance (mkScope (getElementById (host w) "wrap-scroll")) (host w'), w').
Proof.
  rewrite coordinator_tween_eval. cbn zeta. intros [= <-]. cbn [vars x resolve].
  apply call_eval.
Qed.

(** C3.  On every page the [end] handed to [ScrollTrigger.create] is the
    string ["+=NaN"]: the template multiplies the function [get_scr] itself,
    which converts to [NaN], and not the number it returns.  Being a plain
    string, it resolves to the same text under any later layout. *)
Theorem end_is_constant_NaN w :
  (forall sc w', js_mul (VFunction (mkClosure Get_scr sc)) (VNumber (Finite (-1))) w'
                 = (Normal (VNumber NaN), w'))
  /\ exists t, coordinator_trigger w = Some t
       /\ end_ t = VString "+=NaN"
       /\ forall w', resolve (end_ t) w' = (Normal (VString "+=NaN"), w').
Proof.
  split; [reflexivity|].
  eexists. split; [apply coordinator_trigger_eval|]. split; reflexivity.
Qed.

(** C8.  The trigger is anchored to the container and registered with the
    start position ["top 20%"]: the container's top edge at 20% down the
    viewport. *)
Theorem start_is_top_20_percent w :
  exists t, coordinator_trigger w = Some t
    /\ start t = VString "top 20%"
    /\ trigger t = value_of_lookup (getElementById (host w) "wrap-scroll").
Proof.
  eexists. split; [apply coordinator_trigger_eval|]. split; reflexivity.
Qed.

(** Only [NaN] prints as ["NaN"]: a decimal expansion does not begin with
    the letter N. *)
Lemma pretty_N_go_not_N (n : N) (s : string) :
  (forall r, s <> String "N" r) -> forall r, pretty_N_go n s <> String "N" r.
Proof.
  revert s. induction (N.lt_wf_0 n) as [n _ IH]. intros s Hs r.
  destruct (decide (n = 0%N)) as [->|Hpos].
  - rewrite pretty_N_go_0. apply Hs.
  - rewrite pretty_N_go_step by lia. apply IH.
    + apply N.div_lt; lia.
    + intros r'. unfold pretty_N_char. repeat case_match; discriminate.
Qed.

Lemma to_string_NaN (n : number) : Number.to_string n = "NaN" -> n = NaN.
Proof.
  destruct n as [| |[|p|p]]; cbn; try discriminate; [reflexivity|].
  unfold pretty, pretty_Z, pretty, pretty_positive, pretty, pretty_N.
  case_decide; [discriminate|].
  intros Hp. exfalso. revert Hp. apply pretty_N_go_not_N. discriminate.
Qed.

(** Whatever number [get_scr] returns, the [end] the code registers is not
    the one its comment describes. *)
Lemma end_never_intended w n :
  n <> NaN -> end_ <$> coordinator_trigger w <> Some (intended_end n).
Proof.
  intros Hn. rewrite coordinator_trigger_eval. cbn. unfold intended_end.
  intros [= H]. cbn in H. symmetry in H. apply to_string_NaN in H.
  destruct n; cbn in H; congruence.
Qed.

(** C2.  Content 3000 wide in a viewport 1200 wide: [get_scr] returns
    -1800, so the documented span end is ["+=1800"]; the [end] the code
    registers is ["+=NaN"]. *)
Theorem end_boundary_3000_1200 :
  fst (get_scr (mkScope (Some 7%nat)) (page 3000 1200)) = Normal (VNumber (Finite (-1800)))
  /\ intended_end (Finite (-1800)) = VString "+=1800"
  /\ end_ <$> coordinator_trigger (page 3000 1200) = Some (VString "+=NaN")
  /\ VString "+=NaN" <> intended_end (Finite (-1800)).
Proof. repeat split; try (vm_compute; reflexivity). discriminate. Qed.

(** C6.  Content and viewport both 1200 wide: [get_scr] returns the
    negative zero, which is [=== 0] and [>= 0], so the documented span end
    is ["+=0"]; the [end] the code registers is ["+=NaN"]. *)
Theorem end_boundary_1200_1200 :
  fst (get_scr (mkScope (Some 7%nat)) (page 1200 1200)) = Normal (VNumber NegZero)
  /\ Number.strict_eq NegZero (Finite 0) = true
  /\ Number.ge NegZero (Finite 0) = true
  /\ intended_end NegZero = VString "+=0"
  /\ end_ <$> coordinator_trigger (page 1200 1200) = Some (VString "+=NaN")
  /\ VString "+=NaN" <> intended_end NegZero.
Proof. repeat split; try (vm_compute; reflexivity). discriminate. Qed.

(** ** A missing container *)

Lemma get_scr_null w :
  get_scr (mkScope None) w = (Throw (TypeError "scrollWidth"), w).
Proof. apply get_scr_eval. Qed.

(** On a page without [#wrap-scroll], setup completes and a later call of
    [get_scr] raises a [TypeError]. *)
Lemma missing_container_raises :
  getElementById (host (blank_page 1200)) "wrap-scroll" = None
  /\ fst (setup (blank_page 1200)) = Normal (mkScope None)
  /\ silent (fst (get_scr (mkScope None) (snd (setup (blank_page 1200))))) = false.
Proof. repeat split; vm_compute; reflexivity. Qed.

(** C9, amended.  When [#wrap-scroll] is absent, setup itself raises no
    error: the lookup yields [null], the tween and the trigger are
    registered on [null], the host is left as it was, and no property of
    the null reference is read.  Every call of [get_scr] made afterwards
    throws a [TypeError] for the read of [scrollWidth], which [get_scr]
    does not catch. *)
Theorem missing_container w0 :
  getElementById (host w0) "wrap-scroll" = None ->
  exists w1 tw t,
    setup w0 = (Normal (mkScope None), w1)
    /\ host w1 = host w0
    /\ coordinator_tween w0 = Some tw /\ targets tw = VNull
    /\ coordinator_trigger w0 = Some t /\ trigger t = VNull
    /\ forall w, get_scr (mkScope None) w = (Throw (TypeError "scrollWidth"), w).
Proof.
  intros Hnone. pose proof (setup_eval w0) as Hs. cbn zeta in Hs.
  rewrite Hnone in Hs. do 3 eexists.
  split; [exact Hs|]. split; [reflexivity|].
  split; [apply coordinator_tween_eval|]. split; [cbn; rewrite Hnone; reflexivity|].
  split; [apply coordinator_trigger_eval|]. split; [cbn; rewrite Hnone; reflexivity|].
  apply get_scr_null.
Qed.

Lemma missing_container_blank_page :
  exists w1 tw t,
    setup (blank_page 1200) = (Normal (mkScope None), w1)
    /\ host w1 = host (blank_page 1200)
    /\ coordinator_tween (blank_page 1200) = Some tw /\ targets tw = VNull
    /\ coordinator_trigger (blank_page 1200) = Some t /\ trigger t = VNull
    /\ forall w, get_scr (mkScope None) w = (Throw (TypeError "scrollWidth"), w).
Proof. apply (missing_container (blank_page 1200)). vm_compute. reflexivity. Defined.

(** ** Refresh order *)

Section RefreshOrder.

Implicit Types (t u c : TriggerVars) (l order : list TriggerVars).

Lemma insert_by_priority_perm t l : Permutation (t :: l) (insert_by_priority t l).
Proof.
  induction l as [|u l IH]; cbn; [reflexivity|].
  destruct (priority u <=? priority t); [reflexivity|].
  rewrite perm_swap. apply perm_skip, IH.
Qed.

Lemma insert_by_priority_sorted t l :
  StronglySorted not_later l -> StronglySorted not_later (insert_by_priority t l).
Proof.
  induction 1 as [|u l Hs IH Hu]; cbn; [repeat constructor|].
  destruct (Z.leb_spec (priority u) (priority t)) as [Hle|Hlt].
  - constructor; [constructor; assumption|].
    constructor; [exact Hle|].
    eapply Forall_impl; [exact Hu|]. unfold not_later. intros v Hv. cbn in Hv. lia.
  - constructor; [exact IH|].
    eapply Permutation_Forall; [apply insert_by_priority_perm|].
    constructor; [unfold not_later; lia | exact Hu].
Qed.

(** The executable order is a refresh pass in the sense of the contract. *)
Lemma refresh_order_pass l : refresh_pass l (refresh_order l).
Proof.
  unfold refresh_pass, refresh_order.
  induction l as [|t l [Hp Hs]]; cbn; [split; constructor|].
  split; [|apply insert_by_priority_sorted, Hs].
  etransitivity; [apply perm_skip, Hp | apply insert_by_priority_perm].
Qed.

(** In a pass, whatever comes after a trigger has no higher priority. *)
Lemma sorted_after order c (before after : list TriggerVars) :
  StronglySorted not_later order -> order = (before ++ c :: after)%list ->
  Forall (not_later c) after.
Proof.
  intros Hs ->. induction before as [|u before IH]; cbn in Hs.
  - apply StronglySorted_inv in Hs. tauto.
  - apply StronglySorted_inv in Hs. tauto.
Qed.

End RefreshOrder.

(** C5.  In every refresh pass (the registered triggers in descending
    [refreshPriority], absent counting as 0), every trigger of default
    priority is visited before the coordinator's trigger and none after
    it, because the coordinator registers with priority -1. *)
Theorem coordinator_refreshes_last w c registry order (before after : list TriggerVars) :
  coordinator_trigger w = Some c ->
  refresh_pass registry order ->
  order = (before ++ c :: after)%list ->
  forall t, In t registry -> priority t = 0 -> In t before /\ ~ In t after.
Proof.
  intros Hc [Hperm Hsorted] Horder t Ht Hprio.
  rewrite coordinator_trigger_eval in Hc. injection Hc as <-.
  pose proof (sorted_after _ _ _ _ Hsorted Horder) as Hafter.
  rewrite List.Forall_forall in Hafter.
  assert (Hnot : ~ In t after).
  { intros Hin. specialize (Hafter t Hin). unfold not_later in Hafter.
    rewrite Hprio in Hafter. cbn in Hafter. lia. }
  split; [|exact Hnot].
  apply (Permutation_in _ Hperm) in Ht. rewrite Horder in Ht.
  apply in_app_or in Ht. destruct Ht as [Hb|[Heq|Ha]];
    [exact Hb | | contradiction].
  subst t. cbn in Hprio. discriminate.
Qed.

Lemma coordinator_refreshes_last_two_observers :
  In default_observer [default_observer] /\ ~ In default_observer [].
Proof.
  eapply (coordinator_refreshes_last (page 3000 1200) _
            [default default_observer (coordinator_trigger (page 3000 1200));
             default_observer]
            _ [default_observer] []).
  - vm_compute. reflexivity.
  - apply refresh_order_pass.
  - vm_compute. reflexivity.
  - right. left. reflexivity.
  - reflexivity.
Defined.

(** ** The scroll distance: edges and dependencies *)

(** X1.  Without overflow ([C <= V]) [get_scr] returns the slack [V - C]
    as a positive number, and the negative zero when the widths are equal:
    a value that is [=== 0] and prints as ["0"] but is not the positive
    zero. *)
Theorem get_scr_without_overflow sc w r e C V :
  w_scr sc = Some r ->
  heap (host w) !! r = Some e ->
  scrollWidth e = C ->
  innerWidth (host w) = V ->
  C <= V ->
  get_scr sc w =
    (Normal (VNumber (if decide (C = V) then NegZero else Finite (V - C))), w)
  /\ (C < V -> Number.lt (Finite 0) (Finite (V - C)) = true)
  /\ Number.strict_eq NegZero (Finite 0) = true
  /\ Number.to_string NegZero = "0"
  /\ NegZero <> Finite 0.
Proof.
  intros Hsc He HC HV Hle. rewrite get_scr_eval. unfold scroll_distance.
  rewrite Hsc, He, HC, HV. repeat split; try discriminate.
  - case_decide as Heq.
    + rewrite Heq, Z.sub_diag. reflexivity.
    + rewrite neg_nonzero by lia.
      replace (- (C - V)) with (V - C) by lia. reflexivity.
  - intros Hlt. cbn. lia.
Qed.

Lemma get_scr_without_overflow_800_1200 :
  get_scr (mkScope (Some 7%nat)) (page 800 1200)
    = (Normal (VNumber (Finite 400)), page 800 1200)
  /\ (800 < 1200 -> Number.lt (Finite 0) (Finite (1200 - 800)) = true)
  /\ Number.strict_eq NegZero (Finite 0) = true
  /\ Number.to_string NegZero = "0"
  /\ NegZero <> Finite 0.
Proof.
  apply (get_scr_without_overflow (mkScope (Some 7%nat)) (page 800 1200) 7%nat
           (mkElement "wrap-scroll" 800) 800 1200);
    [reflexivity | vm_compute; reflexivity | reflexivity | reflexivity | lia].
Defined.

(** X2.  The result of [get_scr] is negative exactly when the content
    overflows the viewport. *)
Theorem get_scr_negative_iff_overflow sc w r e n :
  w_scr sc = Some r ->
  heap (host w) !! r = Some e ->
  fst (get_scr sc w) = Normal (VNumber n) ->
  Number.lt n (Finite 0) = true <-> innerWidth (host w) < scrollWidth e.
Proof.
  intros Hsc He. rewrite get_scr_eval. unfold scroll_distance.
  rewrite Hsc, He. cbn [fst]. intros [= <-].
  destruct (scrollWidth e - innerWidth (host w)) eqn:Hd; cbn;
    split; intros H; try discriminate; try reflexivity; lia.
Qed.

Lemma get_scr_negative_iff_overflow_3000_1200 :
  Number.lt (Finite (-1800)) (Finite 0) = true <-> 1200 < 3000.
Proof.
  apply (get_scr_negative_iff_overflow (mkScope (Some 7%nat)) (page 3000 1200) 7%nat
           (mkElement "wrap-scroll" 3000) (Finite (-1800)));
    [reflexivity | vm_compute; reflexivity | vm_compute; reflexivity].
Defined.

(** X3.  [get_scr] depends on two quantities only: the content width of
    the element found at setup time and the window width.  Two pages that
    agree on them give the same result, whatever else differs: other
    elements, the document order, the element's [id], which element
    [#wrap-scroll] now names, the engine's registrations. *)
Theorem get_scr_reads_two_widths sc w w' :
  innerWidth (host w) = innerWidth (host w') ->
  (forall r, w_scr sc = Some r ->
     scrollWidth <$> heap (host w) !! r = scrollWidth <$> heap (host w') !! r) ->
  fst (get_scr sc w) = fst (get_scr sc w').
Proof.
  intros HV Hsame. rewrite !get_scr_eval. cbn [fst]. unfold scroll_distance.
  destruct (w_scr sc) as [r|]; [|reflexivity].
  specialize (Hsame r eq_refl). rewrite HV.
  destruct (heap (host w) !! r) as [e|], (heap (host w') !! r) as [e'|];
    cbn in Hsame; try discriminate; [|reflexivity].
  injection Hsame as ->. reflexivity.
Qed.

Lemma get_scr_reads_two_widths_reordered :
  fst (get_scr (mkScope (Some 7%nat)) (page 3000 1200))
  = fst (get_scr (mkScope (Some 7%nat)) (page_reordered 3000 1200)).
Proof.
  apply (get_scr_reads_two_widths (mkScope (Some 7%nat)) (page 3000 1200)
           (page_reordered 3000 1200)).
  - reflexivity.
  - intros r Hr. injection Hr as <-. vm_compute. reflexivity.
Defined.

(** X4.  On widths in the DOM [long] range [get_scr] returns a number of
    magnitude below 2^32, far inside the integers a double holds exactly:
    the subtraction and the negation lose nothing. *)
Theorem get_scr_in_range sc w r e :
  w_scr sc = Some r ->
  heap (host w) !! r = Some e ->
  is_long (scrollWidth e) ->
  is_long (innerWidth (host w)) ->
  exists n z, get_scr sc w = (Normal (VNumber n), w)
    /\ to_Z n = Some z /\ Z.abs z < 2 ^ 32 /\ safe_integer n.
Proof.
  unfold is_long. intros Hsc He HC HV. rewrite get_scr_eval.
  unfold scroll_distance. rewrite Hsc, He.
  destruct (scrollWidth e - innerWidth (host w)) eqn:Hd; cbn;
    eexists _, _; (split; [reflexivity|]); (split; [reflexivity|]);
    cbn; split; try exact I; lia.
Qed.

Lemma get_scr_in_range_3000_1200 :
  exists n z, get_scr (mkScope (Some 7%nat)) (page 3000 1200)
                = (Normal (VNumber n), page 3000 1200)
    /\ to_Z n = Some z /\ Z.abs z < 2 ^ 32 /\ safe_integer n.
Proof.
  apply (get_scr_in_range (mkScope (Some 7%nat)) (page 3000 1200) 7%nat
           (mkElement "wrap-scroll" 3000));
    [reflexivity | vm_compute; reflexivity | unfold is_long; cbn; lia
    | unfold is_long; cbn; lia].
Defined.

(** ** The coordinator's registrations *)

(** X5.  The tween animates the element the trigger pins, and its target
    [x] is the arrow function: whenever the engine resolves it, on whatever
    layout, it obtains exactly what a call of [get_scr] returns on that
    layout, a thrown error included. *)
Theorem tween_x_is_get_scr w :
  exists tw t,
    coordinator_tween w = Some tw
    /\ coordinator_trigger w = Some t
    /\ targets tw = trigger t
    /\ forall w', resolve (x (vars tw)) w'
                  = get_scr (mkScope (getElementById (host w) "wrap-scroll")) w'.
Proof.
  eexists _, _. split; [apply coordinator_tween_eval|].
  split; [apply coordinator_trigger_eval|]. split; reflexivity.
Qed.


(** ** The fade-ups and the rest of the listener *)

Lemma L_bind_normal {A B} (m : L A) (k : A -> L B) s a s' :
  m s = (Normal a, s') -> mbind k m s = k a s'.
Proof. unfold mbind, L_bind. intros ->. reflexivity. Qed.

Lemma emit_eval c s :
  emit c s = (Normal (length (calls s)), mkSession (world s) (matching s) (calls s ++ [c])).
Proof. reflexivity. Qed.

Lemma goUp_eval v s :
  goUp v s =
    (Normal tt,
     mkSession (world s) (matching s)
       (calls s ++
          [Gsap_to_fade v (mkFadeUpVars 1 (-60) (mkDecimal 15 1)
                             (mkInlineTrigger v (Some (-1))))])).
Proof. reflexivity. Qed.

(** A loop of fade-ups logs one call per element, in the order of the
    list, and nothing else. *)
Lemma forEach_goUp {A} (f : A -> value) (l : list A) (s : Session) :
  forEach l (fun a => goUp (f a)) s =
    (Normal tt,
     mkSession (world s) (matching s)
       (calls s ++
          map (fun a => Gsap_to_fade (f a)
                          (mkFadeUpVars 1 (-60) (mkDecimal 15 1)
                             (mkInlineTrigger (f a) (Some (-1))))) l)).
Proof.
  revert s. induction l as [|a l IH]; intros s.
  - cbn. rewrite app_nil_r. destruct s; reflexivity.
  - cbn [forEach]. rewrite (L_bind_normal _ _ _ _ _ (goUp_eval (f a) s)).
    rewrite IH. cbn [world matching calls map]. rewrite <- app_assoc. reflexivity.
Qed.

Lemma in_world_setup s :
  in_world setup s =
    (Normal (mkScope (getElementById (host (world s)) "wrap-scroll")),
     mkSession (snd (setup (world s))) (matching s) (calls s)).
Proof. unfold in_world. rewrite setup_eval. reflexivity. Qed.

(** The listener completes on every page and logs, after what was there,
    one fade-up per selector and per paragraph, then the five closing
    calls. *)
Lemma listener_eval s :
  let boxes := matching s ".provide p" in
  listener s =
    (Normal tt,
     mkSession (snd (setup (world s))) (matching s)
       (calls s ++
          map (fun v => Gsap_to_fade v
                          (mkFadeUpVars 1 (-60) (mkDecimal 15 1)
                             (mkInlineTrigger v (Some (-1)))))
              ([VString ".m_i"; VString ".t"; VString ".loc"] ++ map VElement boxes) ++
          [Gsap_set (VString ".text_spl") 1;
           SplitText_create (VString ".text_spl") "chars";
           Gsap_from_chars (length (calls s) + 3 + length boxes + 1)%nat
             (mkCharsVars 0 (mkDecimal 9 1) "power2.in" (mkDecimal 1 1)
                (mkInlineTrigger (VString ".text_spl") (Some (-1))));
           ScrollTrigger_config "visibilitychange,DOMContentLoaded,load,resize";
           Gsap_to_drift (VString ".a") (mkDriftVars 30 "power3.out" 3)])).
Proof.
  cbn zeta. unfold listener.
  rewrite (L_bind_normal _ _ _ _ _ (in_world_setup s)).
  erewrite L_bind_normal by reflexivity.
  erewrite L_bind_normal by apply (forEach_goUp VString).
  erewrite L_bind_normal by apply (forEach_goUp VElement).
  repeat (erewrite L_bind_normal by apply emit_eval).
  unfold mret, L_ret. cbn [world matching calls].
  f_equal. f_equal.
  rewrite !length_app, !length_map. cbn [length].
  rewrite map_app, map_map. rewrite <- !app_assoc. cbn [app map].
  reflexivity.
Qed.

Lemma listener_issued s :
  issued s (snd (listener s)) =
    (map (fun v => Gsap_to_fade v
                     (mkFadeUpVars 1 (-60) (mkDecimal 15 1)
                        (mkInlineTrigger v (Some (-1)))))
         ([VString ".m_i"; VString ".t"; VString ".loc"]
            ++ map VElement (matching s ".provide p")) ++
     [Gsap_set (VString ".text_spl") 1;
      SplitText_create (VString ".text_spl") "chars";
      Gsap_from_chars (length (calls s) + 3 + length (matching s ".provide p") + 1)%nat
        (mkCharsVars 0 (mkDecimal 9 1) "power2.in" (mkDecimal 1 1)
           (mkInlineTrigger (VString ".text_spl") (Some (-1))));
      ScrollTrigger_config "visibilitychange,DOMContentLoaded,load,resize";
      Gsap_to_drift (VString ".a") (mkDriftVars 30 "power3.out" 3)])%list.
Proof.
  unfold issued. rewrite listener_eval. cbn [snd calls]. apply drop_app_length.
Qed.

Lemma fades_of_fade_ups (F : value -> FadeUpVars) (l : list value) :
  fades (map (fun v => Gsap_to_fade v (F v)) l) = map (fun v => (v, F v)) l.
Proof. induction l as [|v l IH]; cbn; [reflexivity|]. f_equal. exact IH. Qed.

Lemma inline_triggers_of_fade_ups (F : value -> FadeUpVars) (l : list value) :
  inline_triggers (map (fun v => Gsap_to_fade v (F v)) l)
  = map (fun v => fu_scrollTrigger (F v)) l.
Proof. induction l as [|v l IH]; cbn; [reflexivity|]. f_equal. exact IH. Qed.

(** X7.  The listener fades up the three headings given by selector, then
    each paragraph that matches [.provide p], in document order and once
    each; with no such paragraph only the three remain.  Every fade-up is
    triggered by the very target it animates. *)
Theorem listener_fade_ups s :
  let s' := snd (listener s) in
  map fst (fades (issued s s'))
    = ([VString ".m_i"; VString ".t"; VString ".loc"]
         ++ map VElement (matching s ".provide p"))%list
  /\ Forall (fun p => st_trigger (fu_scrollTrigger (snd p)) = fst p)
            (fades (issued s s'))
  /\ (matching s ".provide p" = [] -> length (fades (issued s s')) = 3%nat).
Proof.
  cbn zeta. rewrite listener_issued. unfold fades. rewrite omap_app.
  fold (fades (map (fun v => Gsap_to_fade v
                               (mkFadeUpVars 1 (-60) (mkDecimal 15 1)
                                  (mkInlineTrigger v (Some (-1)))))
                   ([VString ".m_i"; VString ".t"; VString ".loc"]
                      ++ map VElement (matching s ".provide p")))).
  rewrite fades_of_fade_ups. cbn [omap list_omap fade_of]. rewrite app_nil_r.
  split; [|split].
  - rewrite map_map. cbn [fst]. apply map_id.
  - apply Forall_map. apply Forall_true. intros v. reflexivity.
  - intros ->. reflexivity.
Qed.

(** X8.  Every scroll trigger the listener configures carries
    [refreshPriority] -1: the coordinator's and each of the [4 + n] nested
    in a tween ([n] the number of paragraphs).  The script registers no
    trigger at the default priority. *)
Theorem listener_priorities s :
  let s' := snd (listener s) in
  Forall (fun it => st_refreshPriority it = Some (-1)) (inline_triggers (issued s s'))
  /\ length (inline_triggers (issued s s'))
     = (4 + length (matching s ".provide p"))%nat
  /\ Forall (fun t => priority t = -1)
            (drop (length (triggers (engine (world s))))
                  (triggers (engine (world s')))).
Proof.
  cbn zeta. rewrite listener_issued. unfold inline_triggers. rewrite omap_app.
  fold (inline_triggers
          (map (fun v => Gsap_to_fade v
                           (mkFadeUpVars 1 (-60) (mkDecimal 15 1)
                              (mkInlineTrigger v (Some (-1)))))
               ([VString ".m_i"; VString ".t"; VString ".loc"]
                  ++ map VElement (matching s ".provide p")))).
  rewrite inline_triggers_of_fade_ups. cbn [omap list_omap inline_trigger_of].
  split; [|split].
  - apply Forall_app. split.
    + apply Forall_map. apply Forall_true. intros v. reflexivity.
    + repeat constructor.
  - rewrite length_app, length_map, length_app, length_map. cbn [length]. lia.
  - rewrite listener_eval. cbn [snd world]. rewrite setup_eval.
    cbn [snd engine triggers]. rewrite drop_app_length. repeat constructor.
Qed.

(** X9.  The character reveal animates the characters of the split that
    the call just before it created on [.text_spl], wherever the fade-ups
    have pushed it in the log. *)
Theorem reveal_animates_its_split s :
  let s' := snd (listener s) in
  exists k, omap reveal_of (issued s s') = [k]
    /\ calls s' !! k = Some (SplitText_create (VString ".text_spl") "chars")
    /\ calls s' !! S k
       = Some (Gsap_from_chars k
                 (mkCharsVars 0 (mkDecimal 9 1) "power2.in" (mkDecimal 1 1)
                    (mkInlineTrigger (VString ".text_spl") (Some (-1))))).
Proof.
  cbn zeta. exists (length (calls s) + 3 + length (matching s ".provide p") + 1)%nat.
  split.
  - rewrite listener_issued, omap_app. cbn [omap list_omap reveal_of].
    replace (omap reveal_of _) with (@nil nat); [reflexivity|].
    symmetry. generalize ([VString ".m_i"; VString ".t"; VString ".loc"]
                            ++ map VElement (matching s ".provide p"))%list.
    intros l. induction l as [|v l IH]; [reflexivity | exact IH].
  - rewrite listener_eval. cbn [snd calls].
    set (fs := map _ _).
    assert (Hlen : (length (calls s ++ fs) = length (calls s) + 3
                                             + length (matching s ".provide p"))%nat).
    { unfold fs. rewrite length_app, length_map, length_app, length_map.
      cbn [length]. lia. }
    rewrite app_assoc. split.
    + rewrite lookup_app_r by lia. rewrite Hlen.
      replace (_ - _)%nat with 1%nat by lia. reflexivity.
    + rewrite lookup_app_r by lia. rewrite Hlen.
      replace (_ - _)%nat with 2%nat by lia. reflexivity.
Qed.

